(** * OAuth completion flow of the generated Wasp server

    A shallow embedding of

    - [server/src/auth/providers/oauth/user.ts]:
      [finishOAuthFlowAndGetRedirectUri] and [getAuthIdFromProviderDetails];
    - the Google provider configuration: [getGoogleProfile].

    Asynchronous code is embedded in a state-and-exception monad over a
    [World] (database, one-time code store, call trace).  Every [await]ed
    call of the source is an [await] here, which records in the trace when
    the call starts and how it settles. *)

From Stdlib Require Import String List ZArith Bool Lia DecimalString.
Import ListNotations.
Open Scope string_scope.
Open Scope list_scope.
Open Scope Z_scope.

Set Implicit Arguments.

(** ** Errors and results *)

(** What a rejected promise carries. *)
Inductive Error : Type :=
| JsError (message : string)                 (* [new Error(message)] *)
| HttpError (status : Z) (message : string)  (* [new HttpError(status, message)] *)
| ValidationError (message : string)
| DuplicateIdentityError
| NetworkError (message : string).

Inductive Result (A : Type) : Type :=
| Ok (a : A)
| Throw (e : Error).

Arguments Ok {A} a.
Arguments Throw {A} e.

(** ** Data model *)

Record ProviderId : Type := mkProviderId
  { providerName : string;
    providerUserId : string }.

(** The values a signup may set on the user entity. *)
Definition UserFields : Type := list (string * string).

Record AuthIdentity : Type := mkAuthIdentity
  { ai_providerName : string;
    ai_providerUserId : string;
    ai_providerData : string }.

Record User : Type := mkUser
  { user_id : Z;
    user_fields : UserFields }.

(** One [Auth] row together with what it owns: its identities and the one
    user it belongs to. *)
Record Auth : Type := mkAuth
  { auth_id : Z;
    auth_identities : list AuthIdentity;
    auth_user : User }.

Definition DB : Type := list Auth.

Record OneTimeCode : Type := mkOneTimeCode
  { otc_code : string;
    otc_authId : Z;
    otc_createdAt : Z;
    otc_expiresAt : Z }.

(** Result of [prisma.authIdentity.findUnique] with
    [include: { auth: { include: { user: true } } }]. *)
Record AuthIdentityWithAuth : Type := mkAuthIdentityWithAuth
  { identity : AuthIdentity;
    auth : Auth }.

(** Result of [createUser]: the user with its [auth]. *)
Record UserWithAuth : Type := mkUserWithAuth
  { user : User;
    user_auth : Auth }.

Definition identity_has_key (p : ProviderId) (i : AuthIdentity) : bool :=
  String.eqb (ai_providerName i) (providerName p)
  && String.eqb (ai_providerUserId i) (providerUserId p).

(** Lookup by the unique key [providerName_providerUserId]. *)
Fixpoint findUnique (d : DB) (p : ProviderId) : option AuthIdentityWithAuth :=
  match d with
  | [] => None
  | a :: rest =>
      match find (identity_has_key p) (auth_identities a) with
      | Some i => Some (mkAuthIdentityWithAuth i a)
      | None => findUnique rest p
      end
  end.

Definition next_id (ids : list Z) : Z :=
  1 + fold_right Z.max 0 ids.

(** Modelled from the spec: [createUser] of [wasp/auth/utils] is not among the
    sources.  Spec 4.2: [createUserWithIdentity(providerId, providerData,
    userFields) -> Auth] is transactional and fails with
    [DuplicateIdentityError] if the key already exists; spec 3: the user is
    created together with its [Auth] and first [AuthIdentity]. *)
Definition createUserWithIdentity
    (p : ProviderId) (providerData : string) (userFields : UserFields)
    (d : DB) : Result UserWithAuth * DB :=
  match findUnique d p with
  | Some _ => (Throw DuplicateIdentityError, d)
  | None =>
      let u := mkUser (next_id (map (fun a => user_id (auth_user a)) d))
                      userFields in
      let a := mkAuth (next_id (map auth_id d))
                      [mkAuthIdentity (providerName p) (providerUserId p)
                                      providerData]
                      u in
      (Ok (mkUserWithAuth u a), d ++ [a])
  end.

(** ** Collaborators

    What [user.ts] imports and this repository's sources do not contain is
    taken as a parameter: the request, profile and signup-field types, the
    helpers of [wasp/auth/utils], the user-defined hooks of [hooks.js] and the
    redirect builder of [./redirect].  An awaited helper yields a [Result]:
    its promise may reject.  The hooks are handed the Prisma client (auth-hooks
    documentation, API reference), so a hook is a function on the database
    that may reject, and may have written before it rejects. *)

Record OAuthFields : Type := mkOAuthFields
  { accessToken : string;
    uniqueRequestId : string }.

(** [ProviderConfig], without its router factory. *)
Record ProviderConfig : Type := mkProviderConfig
  { id : string;
    displayName : string }.

Record OAuthState : Type := mkOAuthState
  { state : string }.

Class Collaborators : Type :=
  { Request : Type;
    Profile : Type;
    UserSignupFields : Type;
    URL : Type;
    createProviderId : string -> string -> ProviderId;
    validateAndGetUserFields :
      Profile -> option UserSignupFields -> Result UserFields;
    sanitizeAndSerializeProviderData :
      list (string * string) -> Result string;
    onBeforeSignupHook :
      Request -> ProviderId -> DB -> Result unit * DB;
    onAfterSignupHook :
      Request -> ProviderId -> UserWithAuth -> option OAuthFields ->
      DB -> Result unit * DB;
    getRedirectUriForOneTimeCode : string -> URL;
    (* the one-time code store's source of fresh tokens and its lifetime *)
    randomToken : nat -> string;
    validFor : Z }.

Section Flow.

Context {deps : Collaborators}.

(** ** Calls, trace and world *)

(** The calls the flow awaits, with their arguments. *)
Inductive Call : Type :=
| CFindUnique (providerId : ProviderId)
| CValidateAndGetUserFields (profile : Profile)
                            (userSignupFields : option UserSignupFields)
| CSanitizeAndSerializeProviderData (providerData : list (string * string))
| COnBeforeSignupHook (req : Request) (providerId : ProviderId)
| CCreateUser (providerId : ProviderId) (providerData : string)
              (userFields : UserFields)
| COnAfterSignupHook (req : Request) (providerId : ProviderId)
                     (u : UserWithAuth) (oauth : option OAuthFields)
| CCreateToken (authId : Z).

Inductive Event : Type :=
| Called (c : Call)
| Fulfilled (c : Call)
| Rejected (c : Call) (e : Error).

Record World : Type := mkWorld
  { db : DB;
    codes : list OneTimeCode;
    trace : list Event;
    rng : nat;
    now : Z }.

Definition record_event (ev : Event) (w : World) : World :=
  mkWorld (db w) (codes w) (trace w ++ [ev]) (rng w) (now w).

Definition set_db (d : DB) (w : World) : World :=
  mkWorld d (codes w) (trace w) (rng w) (now w).

(** ** The monad of asynchronous code *)

Definition M (A : Type) : Type := World -> Result A * World.

Definition ret {A : Type} (a : A) : M A := fun w => (Ok a, w).

Definition bind {A B : Type} (m : M A) (k : A -> M B) : M B :=
  fun w =>
    match m w with
    | (Ok a, w1) => k a w1
    | (Throw e, w1) => (Throw e, w1)
    end.

(** [await c m]: start call [c], run it to completion, note how it
    settled, and resume with its result (or rethrow). *)
Definition await {A : Type} (c : Call) (m : M A) : M A :=
  fun w =>
    match m (record_event (Called c) w) with
    | (Ok a, w1) => (Ok a, record_event (Fulfilled c) w1)
    | (Throw e, w1) => (Throw e, record_event (Rejected c e) w1)
    end.

(** A pure helper that may throw. *)
Definition of_result {A : Type} (r : Result A) : M A := fun w => (r, w).

(** Code that works on the database only (Prisma calls, hooks). *)
Definition on_db {A : Type} (f : DB -> Result A * DB) : M A :=
  fun w => let (r, d) := f (db w) in (r, set_db d w).

End Flow.

Declare Scope async_scope.
Delimit Scope async_scope with async.
Notation "x <- m ;; k" := (bind m (fun x => k))
  (at level 100, m at next level, right associativity) : async_scope.
Notation "m ;;; k" := (bind m (fun _ => k))
  (at level 100, right associativity) : async_scope.

Section Operations.

Context {deps : Collaborators}.
Open Scope async_scope.

(** [prisma.authIdentity.findUnique]: a read. *)
Definition prisma_authIdentity_findUnique (providerId : ProviderId)
  : M (option AuthIdentityWithAuth) :=
  on_db (fun d => (Ok (findUnique d providerId), d)).

(** [createUser] of [wasp/auth/utils], as a step of the flow. *)
Definition createUser (providerId : ProviderId) (providerData : string)
    (userFields : UserFields) : M UserWithAuth :=
  on_db (createUserWithIdentity providerId providerData userFields).

(** Modelled from the spec: [tokenStore] of [./oneTimeCode] is not among the
    sources.  Spec 4.3: [issue(authId) -> code] generates a random token and
    stores it with an expiration; spec 3: the record is
    [{ code, authId, createdAt, expiresAt }]. *)
Definition tokenStore_createToken (authId : Z) : M string :=
  fun w =>
    let code := randomToken (rng w) in
    (Ok code,
     mkWorld (db w)
             (mkOneTimeCode code authId (now w) (now w + validFor) :: codes w)
             (trace w) (S (rng w)) (now w)).

(** Arguments of [getAuthIdFromProviderDetails]. *)
Record ProviderDetails : Type := mkProviderDetails
  { pd_providerId : ProviderId;
    pd_providerProfile : Profile;
    pd_userSignupFields : option UserSignupFields;
    pd_req : Request;
    pd_accessToken : string;
    pd_oAuthState : OAuthState }.

Definition getAuthIdFromProviderDetails (a : ProviderDetails) : M Z :=
  let providerId := pd_providerId a in
  existingAuthIdentity <-
    await (CFindUnique providerId)
          (prisma_authIdentity_findUnique providerId) ;;
  match existingAuthIdentity with
  | Some existing => ret (auth_id (auth existing))
  | None =>
      userFields <-
        await (CValidateAndGetUserFields (pd_providerProfile a)
                                         (pd_userSignupFields a))
              (of_result (validateAndGetUserFields (pd_providerProfile a)
                                                   (pd_userSignupFields a))) ;;
      providerData <-
        await (CSanitizeAndSerializeProviderData [])
              (of_result (sanitizeAndSerializeProviderData [])) ;;
      await (COnBeforeSignupHook (pd_req a) providerId)
            (on_db (onBeforeSignupHook (pd_req a) providerId)) ;;;
      u <- await (CCreateUser providerId providerData userFields)
                 (createUser providerId providerData userFields) ;;
      let oauth :=
        Some (mkOAuthFields (pd_accessToken a) (state (pd_oAuthState a))) in
      await (COnAfterSignupHook (pd_req a) providerId u oauth)
            (on_db (onAfterSignupHook (pd_req a) providerId u oauth)) ;;;
      ret (auth_id (user_auth u))
  end.

(** Arguments of [finishOAuthFlowAndGetRedirectUri]. *)
Record FinishArgs : Type := mkFinishArgs
  { fa_provider : ProviderConfig;
    fa_providerProfile : Profile;
    fa_providerUserId : string;
    fa_userSignupFields : option UserSignupFields;
    fa_req : Request;
    fa_accessToken : string;
    fa_oAuthState : OAuthState }.

Definition finishOAuthFlowAndGetRedirectUri (a : FinishArgs) : M URL :=
  let providerId :=
    createProviderId (id (fa_provider a)) (fa_providerUserId a) in
  authId <-
    getAuthIdFromProviderDetails
      (mkProviderDetails providerId (fa_providerProfile a)
                         (fa_userSignupFields a) (fa_req a)
                         (fa_accessToken a) (fa_oAuthState a)) ;;
  oneTimeCode <- await (CCreateToken authId) (tokenStore_createToken authId) ;;
  ret (getRedirectUriForOneTimeCode oneTimeCode).

End Operations.

(** ** Observing a trace *)

Section Observers.

Context {deps : Collaborators}.

(** The calls started in a trace, in order. *)
Definition calls (t : list Event) : list Call :=
  flat_map (fun ev => match ev with Called c => [c] | _ => [] end) t.

Definition is_createToken (c : Call) : bool :=
  match c with CCreateToken _ => true | _ => false end.

Definition is_createUser (c : Call) : bool :=
  match c with CCreateUser _ _ _ => true | _ => false end.

Definition is_onBeforeSignupHook (c : Call) : bool :=
  match c with COnBeforeSignupHook _ _ => true | _ => false end.

Definition is_onAfterSignupHook (c : Call) : bool :=
  match c with COnAfterSignupHook _ _ _ _ => true | _ => false end.

(** Database writers among the calls: everything that is handed the
    database except the [findUnique] read. *)
Definition is_write (c : Call) : bool :=
  match c with
  | COnBeforeSignupHook _ _ | CCreateUser _ _ _
  | COnAfterSignupHook _ _ _ _ => true
  | _ => false
  end.

(** The events of a call that ran to completion. *)
Definition settled_ok (c : Call) : list Event := [Called c; Fulfilled c].

(** The events of a call that was rejected with [e]. *)
Definition settled_err (c : Call) (e : Error) : list Event :=
  [Called c; Rejected c e].

(** [e1] occurs in [t], and [e2] occurs later. *)
Definition precedes (e1 e2 : Event) (t : list Event) : Prop :=
  exists t1 t2 t3, t = t1 ++ e1 :: t2 ++ e2 :: t3.

(** Every call of kind [q] started in [t] starts after a call of kind [p]
    has run to completion. *)
Definition completes_before (p q : Call -> bool) (t : list Event) : Prop :=
  forall c, q c = true -> In (Called c) t ->
            exists b, p b = true /\ precedes (Fulfilled b) (Called c) t.

(** The steps the claims order: the two hooks, [createUser], and
    [tokenStore.createToken]. *)
Definition is_step (c : Call) : bool :=
  is_onBeforeSignupHook c || is_createUser c
  || is_onAfterSignupHook c || is_createToken c.

(** The code of the record most recently put in the one-time code store. *)
Definition issuedCode (w : World) : option string :=
  match codes w with
  | [] => None
  | c :: _ => Some (otc_code c)
  end.

(** The [ProviderId] a callback is resolved for. *)
Definition callbackProviderId (a : FinishArgs) : ProviderId :=
  createProviderId (id (fa_provider a)) (fa_providerUserId a).

Definition detailsOf (a : FinishArgs) : ProviderDetails :=
  mkProviderDetails (callbackProviderId a) (fa_providerProfile a)
                    (fa_userSignupFields a) (fa_req a)
                    (fa_accessToken a) (fa_oAuthState a).

(** The calls of [getAuthIdFromProviderDetails], as it makes them. *)
Definition findCall (a : ProviderDetails) : Call :=
  CFindUnique (pd_providerId a).

Definition validateCall (a : ProviderDetails) : Call :=
  CValidateAndGetUserFields (pd_providerProfile a) (pd_userSignupFields a).

Definition sanitizeCall : Call := CSanitizeAndSerializeProviderData [].

Definition beforeCall (a : ProviderDetails) : Call :=
  COnBeforeSignupHook (pd_req a) (pd_providerId a).

Definition createUserCall (a : ProviderDetails) (providerData : string)
    (userFields : UserFields) : Call :=
  CCreateUser (pd_providerId a) providerData userFields.

Definition oauthContext (a : ProviderDetails) : option OAuthFields :=
  Some (mkOAuthFields (pd_accessToken a) (state (pd_oAuthState a))).

Definition afterCall (a : ProviderDetails) (u : UserWithAuth) : Call :=
  COnAfterSignupHook (pd_req a) (pd_providerId a) u (oauthContext a).

End Observers.

(** ** The Google provider *)

Module Google.

(** The userinfo response as the source types it: [{ sub?: string }], with
    whatever other claims the provider sends. *)
Record GoogleProfile : Type := mkGoogleProfile
  { sub : option string;
    otherClaims : list (string * string) }.

(** A fetched response; [json] is the outcome of [response.json()]. *)
Record Response : Type := mkResponse
  { json : Result GoogleProfile }.

(** [fetch(url, { headers })]. *)
Definition Fetch : Type :=
  string -> list (string * string) -> Result Response.

Record ProviderInfo : Type := mkProviderInfo
  { providerProfile : GoogleProfile;
    providerUserId : string }.

(** JavaScript's [!v] for [v : string | undefined]. *)
Definition js_not (v : option string) : bool :=
  match v with
  | None => true
  | Some s => String.eqb s ""
  end.

Definition userinfoEndpoint : string :=
  "https://openidconnect.googleapis.com/v1/userinfo".

Definition getGoogleProfile (fetch : Fetch) (accessToken : string)
  : Result ProviderInfo :=
  match fetch userinfoEndpoint
              [("Authorization", ("Bearer " ++ accessToken)%string)] with
  | Throw e => Throw e
  | Ok response =>
      match json response with
      | Throw e => Throw e
      | Ok providerProfile =>
          if js_not (sub providerProfile)
          then Throw (JsError "Invalid profile")
          else
            match sub providerProfile with
            | Some s => Ok (mkProviderInfo providerProfile s)
            | None => Throw (JsError "Invalid profile")
            end
      end
  end.

(** The claim that a response with a [sub] field always yields that field,
    and one without always fails. *)
Definition sub_field_decides : Prop :=
  forall (fetch : Fetch) (accessToken : string) (response : Response)
         (p : GoogleProfile),
    fetch userinfoEndpoint
          [("Authorization", ("Bearer " ++ accessToken)%string)]
      = Ok response ->
    json response = Ok p ->
    match sub p with
    | None => getGoogleProfile fetch accessToken
              = Throw (JsError "Invalid profile")
    | Some s => getGoogleProfile fetch accessToken
                = Ok (mkProviderInfo p s)
    end.

(** A provider that answers every request with profile [p]. *)
Definition respondWith (p : GoogleProfile) : Fetch :=
  fun _ _ => Ok (mkResponse (Ok p)).

End Google.

(** ** What a callback resolves to *)

Section Resolution.

Context {deps : Collaborators}.

(** [resolvedAuthId a w authId]: in world [w], [authId] is the [Auth.id] the
    callback [a] resolves to: the existing identity's on the login path, the
    newly created user's on the signup path. *)
Definition resolvedAuthId (a : FinishArgs) (w : World) (authId : Z) : Prop :=
  let providerId := callbackProviderId a in
  match findUnique (db w) providerId with
  | Some existing => authId = auth_id (auth existing)
  | None =>
      exists userFields providerData d1 u d2,
        validateAndGetUserFields (fa_providerProfile a)
                                 (fa_userSignupFields a) = Ok userFields
        /\ sanitizeAndSerializeProviderData [] = Ok providerData
        /\ onBeforeSignupHook (fa_req a) providerId (db w) = (Ok tt, d1)
        /\ createUserWithIdentity providerId providerData userFields d1
           = (Ok u, d2)
        /\ findUnique d2 providerId
           = Some (mkAuthIdentityWithAuth
                     (mkAuthIdentity (providerName providerId)
                                     (providerUserId providerId)
                                     providerData)
                     (user_auth u))
        /\ authId = auth_id (user_auth u)
  end.

(** The events of the signup path up to the point where each step starts. *)
Definition untilSanitize (a : ProviderDetails) : list Event :=
  settled_ok (findCall a) ++ settled_ok (validateCall a).

Definition untilBeforeSignup (a : ProviderDetails) : list Event :=
  untilSanitize a ++ settled_ok sanitizeCall.

Definition untilCreateUser (a : ProviderDetails) : list Event :=
  untilBeforeSignup a ++ settled_ok (beforeCall a).

Definition untilAfterSignup (a : ProviderDetails) (providerData : string)
    (userFields : UserFields) : list Event :=
  untilCreateUser a ++ settled_ok (createUserCall a providerData userFields).

(** [SignupRun a w r d evs]: one way the signup path of
    [getAuthIdFromProviderDetails a] can go from world [w]: its result [r],
    the database [d] it leaves and the events [evs] it adds.  One rule per
    step that can reject, and one for the run that creates the account. *)
Inductive SignupRun (a : ProviderDetails) (w : World)
  : Result Z -> DB -> list Event -> Prop :=
| ValidationRejected (e : Error) :
    validateAndGetUserFields (pd_providerProfile a) (pd_userSignupFields a)
    = Throw e ->
    SignupRun a w (Throw e) (db w)
              (settled_ok (findCall a) ++ settled_err (validateCall a) e)
| SanitizeRejected (userFields : UserFields) (e : Error) :
    validateAndGetUserFields (pd_providerProfile a) (pd_userSignupFields a)
    = Ok userFields ->
    sanitizeAndSerializeProviderData [] = Throw e ->
    SignupRun a w (Throw e) (db w)
              (untilSanitize a ++ settled_err sanitizeCall e)
| BeforeSignupRejected (userFields : UserFields) (providerData : string)
                       (e : Error) (d1 : DB) :
    validateAndGetUserFields (pd_providerProfile a) (pd_userSignupFields a)
    = Ok userFields ->
    sanitizeAndSerializeProviderData [] = Ok providerData ->
    onBeforeSignupHook (pd_req a) (pd_providerId a) (db w) = (Throw e, d1) ->
    SignupRun a w (Throw e) d1
              (untilBeforeSignup a ++ settled_err (beforeCall a) e)
| CreateUserRejected (userFields : UserFields) (providerData : string)
                     (d1 : DB) (e : Error) (d2 : DB) :
    validateAndGetUserFields (pd_providerProfile a) (pd_userSignupFields a)
    = Ok userFields ->
    sanitizeAndSerializeProviderData [] = Ok providerData ->
    onBeforeSignupHook (pd_req a) (pd_providerId a) (db w) = (Ok tt, d1) ->
    createUserWithIdentity (pd_providerId a) providerData userFields d1
    = (Throw e, d2) ->
    SignupRun a w (Throw e) d2
              (untilCreateUser a
               ++ settled_err (createUserCall a providerData userFields) e)
| AfterSignupRejected (userFields : UserFields) (providerData : string)
                      (d1 : DB) (u : UserWithAuth) (d2 : DB)
                      (e : Error) (d3 : DB) :
    validateAndGetUserFields (pd_providerProfile a) (pd_userSignupFields a)
    = Ok userFields ->
    sanitizeAndSerializeProviderData [] = Ok providerData ->
    onBeforeSignupHook (pd_req a) (pd_providerId a) (db w) = (Ok tt, d1) ->
    createUserWithIdentity (pd_providerId a) providerData userFields d1
    = (Ok u, d2) ->
    onAfterSignupHook (pd_req a) (pd_providerId a) u (oauthContext a) d2
    = (Throw e, d3) ->
    SignupRun a w (Throw e) d3
              (untilAfterSignup a providerData userFields
               ++ settled_err (afterCall a u) e)
| SignedUp (userFields : UserFields) (providerData : string)
           (d1 : DB) (u : UserWithAuth) (d2 d3 : DB) :
    validateAndGetUserFields (pd_providerProfile a) (pd_userSignupFields a)
    = Ok userFields ->
    sanitizeAndSerializeProviderData [] = Ok providerData ->
    onBeforeSignupHook (pd_req a) (pd_providerId a) (db w) = (Ok tt, d1) ->
    createUserWithIdentity (pd_providerId a) providerData userFields d1
    = (Ok u, d2) ->
    onAfterSignupHook (pd_req a) (pd_providerId a) u (oauthContext a) d2
    = (Ok tt, d3) ->
    SignupRun a w (Ok (auth_id (user_auth u))) d3
              (untilAfterSignup a providerData userFields
               ++ settled_ok (afterCall a u)).

End Resolution.

(** ** A concrete application

    An instance of the collaborators, used to run the flow on concrete
    inputs: the hooks are the ones of the auth-hooks documentation (the
    signup gate on the user count and on one e-mail address; storing the
    access token after signup), and the redirect has the form of spec 6,
    [{clientUrl}?code={oneTimeCode}]. *)

Module Example.

Definition clientUrl : string := "http://localhost:3000/oauth/callback".

Definition onBeforeSignup (req : string) (providerId : ProviderId) (d : DB)
  : Result unit * DB :=
  if (100 <? Z.of_nat (length d))%Z
  then (Throw (HttpError 403 "Too many users"), d)
  else if String.eqb (providerName providerId) "email"
          && String.eqb (providerUserId providerId) "some@email.com"
  then (Throw (HttpError 403 "This email is not allowed"), d)
  else (Ok tt, d).

Definition storeAccessToken (authId : Z) (token : string) (a : Auth) : Auth :=
  if (auth_id a =? authId)%Z
  then mkAuth (auth_id a) (auth_identities a)
              (mkUser (user_id (auth_user a))
                      (("accessToken", token) :: user_fields (auth_user a)))
  else a.

Definition onAfterSignup (req : string) (providerId : ProviderId)
    (u : UserWithAuth) (oauth : option OAuthFields) (d : DB)
  : Result unit * DB :=
  match oauth with
  | None => (Ok tt, d)
  | Some o =>
      if String.eqb (accessToken o) ""
      then (Throw (JsError "no access token to store"), d)
      else (Ok tt,
            map (storeAccessToken (auth_id (user_auth u)) (accessToken o)) d)
  end.

Definition decimal (n : nat) : string :=
  DecimalString.NilEmpty.string_of_uint (Nat.to_uint n).

#[local] Instance app : Collaborators :=
  {| Request := string;
     Profile := Google.GoogleProfile;
     UserSignupFields := UserFields;
     URL := string;
     createProviderId := mkProviderId;
     validateAndGetUserFields :=
       fun _ fields => match fields with
                       | None => Ok []
                       | Some fs => Ok fs
                       end;
     sanitizeAndSerializeProviderData := fun _ => Ok "{}";
     onBeforeSignupHook := onBeforeSignup;
     onAfterSignupHook := onAfterSignup;
     getRedirectUriForOneTimeCode :=
       fun code => (clientUrl ++ "?code=" ++ code)%string;
     randomToken := fun n => ("otc-" ++ decimal (S n))%string;
     validFor := 60 |}.

Definition google : ProviderConfig := mkProviderConfig "google" "Google".

Definition profile9 : Google.GoogleProfile :=
  Google.mkGoogleProfile (Some "gid-9") [("name", "Ada")].

(** The callback of the spec's end-to-end example. *)
Definition callback (token : string) : FinishArgs :=
  mkFinishArgs google profile9 "gid-9" None "GET /auth/google/callback"
               token (mkOAuthState "s1").

(** The same callback for an address the signup gate refuses. *)
Definition bannedCallback : FinishArgs :=
  mkFinishArgs (mkProviderConfig "email" "Email") profile9 "some@email.com"
               None "GET /auth/email/callback" "at-1" (mkOAuthState "s2").

Definition emptyWorld : World := mkWorld [] [] [] 0 1000.

Definition ada : Auth :=
  mkAuth 7 [mkAuthIdentity "google" "gid-9" "{}"] (mkUser 3 []).

(** A world in which the subject of [callback] already has an account. *)
Definition returningWorld : World := mkWorld [ada] [] [] 4 2000.

(** The same, with a code store that has issued nothing yet. *)
Definition freshReturningWorld : World := mkWorld [ada] [] [] 0 2000.

(** The account a signup through [callback] creates in [emptyWorld]. *)
Definition newUser : UserWithAuth :=
  mkUserWithAuth (mkUser 1 [])
                 (mkAuth 1 [mkAuthIdentity "google" "gid-9" "{}"]
                         (mkUser 1 [])).

(** The worlds the flow leaves. *)
Definition afterSignup : World :=
  snd (finishOAuthFlowAndGetRedirectUri (callback "at-1") emptyWorld).

Definition afterLogin : World :=
  snd (finishOAuthFlowAndGetRedirectUri (callback "at-2")
                                        freshReturningWorld).

Definition completionUrl : string :=
  "http://localhost:3000/oauth/callback?code=otc-1".

(** A userinfo response whose [sub] is present and empty. *)
Definition emptySubProfile : Google.GoogleProfile :=
  Google.mkGoogleProfile (Some "") [("name", "Ada")].

End Example.

(** ** More to observe in a trace *)

Section MoreObservers.

Context {deps : Collaborators}.

Definition is_validateAndGetUserFields (c : Call) : bool :=
  match c with CValidateAndGetUserFields _ _ => true | _ => false end.

Definition is_sanitizeAndSerializeProviderData (c : Call) : bool :=
  match c with CSanitizeAndSerializeProviderData _ => true | _ => false end.

(** The [ProviderId] a call is given, if it is given one. *)
Definition providerIdOf (c : Call) : option ProviderId :=
  match c with
  | CFindUnique p
  | COnBeforeSignupHook _ p
  | CCreateUser p _ _
  | COnAfterSignupHook _ p _ _ => Some p
  | _ => None
  end.

(** Every [ProviderId] passed in the calls of [cs] is [p]. *)
Definition only_providerId (p : ProviderId) (cs : list Call) : Prop :=
  Forall (fun c => match providerIdOf c with
                   | Some q => q = p
                   | None => True
                   end) cs.

End MoreObservers.

(** ** The signup gate of the auth-hooks documentation

    The [onBeforeSignup] example: refuse the signup when more than 100 users
    exist, then when the address is the one not allowed.
    [prisma.user.count()] is the number of rows, each [Auth] having its one
    user. *)

Definition documentedOnBeforeSignup {Req : Type} (req : Req)
    (providerId : ProviderId) (d : DB) : Result unit * DB :=
  let count := Z.of_nat (length d) in
  if (100 <? count)%Z
  then (Throw (HttpError 403 "Too many users"), d)
  else if String.eqb (providerName providerId) "email"
          && String.eqb (providerUserId providerId) "some@email.com"
  then (Throw (HttpError 403 "This email is not allowed"), d)
  else (Ok tt, d).

(** ** The query client of the SDK ([rpc/queryClient.ts]) *)

Module QueryClientSdk.

(** The options object handed to [new QueryClient(...)]. *)
Definition QueryClientConfig : Type := list (string * string).

Definition defaultQueryClientConfig : QueryClientConfig := [].

(** A [QueryClient], known by the options it was constructed with. *)
Record QueryClient : Type := mkQueryClient
  { options : QueryClientConfig }.

(** A promise settles once: resolving a resolved promise changes nothing. *)
Inductive Promise (A : Type) : Type :=
| Pending
| Resolved (v : A).

Arguments Pending {A}.
Arguments Resolved {A} v.

Definition resolve {A : Type} (p : Promise A) (v : A) : Promise A :=
  match p with
  | Pending => Resolved v
  | Resolved _ => p
  end.

(** The module's variables.  [queryClientConfig] and
    [isQueryClientInitialized] are declared without a value: [undefined],
    which [None] and [false] stand for. *)
Record Module_ : Type := mkModule
  { queryClientConfig : option QueryClientConfig;
    isQueryClientInitialized : bool;
    queryClientInitialized : Promise QueryClient }.

Definition loaded : Module_ := mkModule None false Pending.

Definition configureQueryClient (config : QueryClientConfig) (m : Module_)
  : Result unit * Module_ :=
  if isQueryClientInitialized m
  then (Throw (JsError
                 "Attempted to configure the QueryClient after initialization"),
        m)
  else (Ok tt,
        mkModule (Some config) (isQueryClientInitialized m)
                 (queryClientInitialized m)).

(** [a ?? b] *)
Definition nullish {A : Type} (a : option A) (b : A) : A :=
  match a with
  | Some v => v
  | None => b
  end.

Definition initializeQueryClient (m : Module_) : Module_ :=
  let queryClient :=
    mkQueryClient (nullish (queryClientConfig m) defaultQueryClientConfig) in
  mkModule (queryClientConfig m) true
           (resolve (queryClientInitialized m) queryClient).

(** What an application does with the module, one call after the other;
    a call of [configureQueryClient] that throws leaves the module as it
    is. *)
Inductive Op : Type :=
| Configure (config : QueryClientConfig)
| Initialize.

Definition step (m : Module_) (op : Op) : Module_ :=
  match op with
  | Configure config => snd (configureQueryClient config m)
  | Initialize => initializeQueryClient m
  end.

Definition run (ops : list Op) (m : Module_) : Module_ :=
  fold_left step ops m.

Definition is_initialize (op : Op) : bool :=
  match op with Initialize => true | Configure _ => false end.

(** The argument of the last [Configure] of [ops]. *)
Definition lastConfigured (ops : list Op) : option QueryClientConfig :=
  fold_left (fun acc op => match op with
                           | Configure config => Some config
                           | Initialize => acc
                           end) ops None.

End QueryClientSdk.

(** ** A second application

    Signup fields are required claims of the profile; the [onBeforeSignup]
    hook of the request ["race"] stands for a concurrent signup of the same
    subject that commits while this one is between lookup and creation. *)

Module Scenario.

Fixpoint requiredClaims (claims : list (string * string))
    (required : list string) : Result UserFields :=
  match required with
  | [] => Ok []
  | name :: rest =>
      match find (fun kv => String.eqb (fst kv) name) claims with
      | None => Throw (ValidationError name)
      | Some kv =>
          match requiredClaims claims rest with
          | Ok fields => Ok (kv :: fields)
          | Throw e => Throw e
          end
      end
  end.

Definition concurrentSignup (req : string) (providerId : ProviderId) (d : DB)
  : Result unit * DB :=
  if String.eqb req "race"
  then (Ok tt, snd (createUserWithIdentity providerId "{}" [] d))
  else (Ok tt, d).

#[local] Instance app : Collaborators :=
  {| Request := string;
     Profile := Google.GoogleProfile;
     UserSignupFields := list string;
     URL := string;
     createProviderId := mkProviderId;
     validateAndGetUserFields :=
       fun profile fields =>
         match fields with
         | None => Ok []
         | Some required =>
             requiredClaims (Google.otherClaims profile) required
         end;
     sanitizeAndSerializeProviderData := fun _ => Ok "{}";
     onBeforeSignupHook := concurrentSignup;
     onAfterSignupHook := fun _ _ _ _ d => (Ok tt, d);
     getRedirectUriForOneTimeCode :=
       fun code => (Example.clientUrl ++ "?code=" ++ code)%string;
     randomToken := fun n => ("otc-" ++ Example.decimal (S n))%string;
     validFor := 60 |}.

Definition callback (req : string) (required : option (list string))
  : FinishArgs :=
  mkFinishArgs Example.google Example.profile9 "gid-9" required req
               "at-1" (mkOAuthState "s1").

Definition emptyWorld : World := mkWorld [] [] [] 0 1000.

Definition returningWorld : World := mkWorld [Example.ada] [] [] 4 2000.

(** A provider that cannot be reached, and one that answers with something
    that is not JSON. *)
Definition unreachable : Google.Fetch :=
  fun _ _ => Throw (NetworkError "fetch failed").

Definition notJson : Google.Fetch :=
  fun _ _ => Ok (Google.mkResponse (Throw (JsError "Unexpected token <"))).

End Scenario.

(** * Properties *)

Section Properties.

Context {deps : Collaborators}.

(** ** The identity store *)

Lemma identity_has_key_own (p : ProviderId) (providerData : string) :
  identity_has_key p (mkAuthIdentity (providerName p) (providerUserId p)
                                     providerData) = true.
Proof.
  unfold identity_has_key; cbn.
  now rewrite !String.eqb_refl.
Qed.

Lemma findUnique_app_absent (d d' : DB) (p : ProviderId) :
  findUnique d p = None -> findUnique (d ++ d') p = findUnique d' p.
Proof.
  induction d as [|a d IH]; cbn; [reflexivity|].
  destruct (find (identity_has_key p) (auth_identities a)); [discriminate|].
  exact IH.
Qed.

(** A created user is found again under its [ProviderId]. *)
Lemma createUserWithIdentity_found
    (p : ProviderId) (providerData : string) (userFields : UserFields)
    (d d' : DB) (u : UserWithAuth) :
  createUserWithIdentity p providerData userFields d = (Ok u, d') ->
  findUnique d' p
  = Some (mkAuthIdentityWithAuth
            (mkAuthIdentity (providerName p) (providerUserId p) providerData)
            (user_auth u)).
Proof.
  unfold createUserWithIdentity.
  destruct (findUnique d p) eqn:Hfind; [discriminate|].
  intros H; injection H as <- <-.
  rewrite findUnique_app_absent by exact Hfind; cbn.
  now rewrite identity_has_key_own.
Qed.

(** [findUnique] only reads. *)
Lemma prisma_authIdentity_findUnique_reads (p : ProviderId) (w : World) :
  prisma_authIdentity_findUnique p w = (Ok (findUnique (db w) p), w).
Proof.
  unfold prisma_authIdentity_findUnique, on_db, set_db.
  now destruct w.
Qed.

(** ** Running the flow *)

Ltac unfold_flow :=
  unfold finishOAuthFlowAndGetRedirectUri, getAuthIdFromProviderDetails,
         prisma_authIdentity_findUnique, createUser, tokenStore_createToken,
         detailsOf, callbackProviderId,
         bind, await, on_db, of_result, ret, record_event, set_db in *;
  cbn in *.

Ltac unfold_calls :=
  unfold untilAfterSignup, untilCreateUser, untilBeforeSignup, untilSanitize,
         findCall, validateCall, sanitizeCall, beforeCall, createUserCall,
         afterCall, oauthContext, settled_ok, settled_err in *.

Ltac norm_trace :=
  unfold_calls; unfold record_event, set_db;
  cbn; rewrite <- ?app_assoc; cbn.

(** The login path of [getAuthIdFromProviderDetails]. *)
Lemma getAuthId_login (a : ProviderDetails) (w : World)
    (existing : AuthIdentityWithAuth) :
  findUnique (db w) (pd_providerId a) = Some existing ->
  getAuthIdFromProviderDetails a w
  = (Ok (auth_id (auth existing)),
     mkWorld (db w) (codes w) (trace w ++ settled_ok (findCall a))
             (rng w) (now w)).
Proof.
  intros Hfind. unfold_flow. rewrite Hfind. norm_trace. reflexivity.
Qed.

(** The signup path of [getAuthIdFromProviderDetails]: it always returns,
    and the way it went is one of the rules of [SignupRun]. *)
Lemma getAuthId_signup (a : ProviderDetails) (w : World) :
  findUnique (db w) (pd_providerId a) = None ->
  exists r d evs,
    getAuthIdFromProviderDetails a w
    = (r, mkWorld d (codes w) (trace w ++ evs) (rng w) (now w))
    /\ SignupRun a w r d evs.
Proof.
  intros Hfind. unfold_flow. rewrite Hfind.
  destruct (validateAndGetUserFields _ _) as [userFields|e] eqn:Hval; cbn.
  2:{ do 3 eexists. split; [|eapply ValidationRejected; eassumption].
      norm_trace. reflexivity. }
  destruct (sanitizeAndSerializeProviderData []) as [providerData|e]
    eqn:Hsan; cbn.
  2:{ do 3 eexists. split; [|eapply SanitizeRejected; eassumption].
      norm_trace. reflexivity. }
  destruct (onBeforeSignupHook _ _ _) as [[[]|e] d1] eqn:Hbefore; cbn.
  2:{ do 3 eexists. split; [|eapply BeforeSignupRejected; eassumption].
      norm_trace. reflexivity. }
  destruct (createUserWithIdentity _ _ _ _) as [[u|e] d2] eqn:Hcreate; cbn.
  2:{ do 3 eexists. split; [|eapply CreateUserRejected; eassumption].
      norm_trace. reflexivity. }
  destruct (onAfterSignupHook _ _ _ _ _) as [[[]|e] d3] eqn:Hafter; cbn.
  - do 3 eexists. split; [|eapply SignedUp; eassumption].
    norm_trace. reflexivity.
  - do 3 eexists. split; [|eapply AfterSignupRejected; eassumption].
    norm_trace. reflexivity.
Qed.

(** Two outcomes recorded for the same step are the same outcome. *)
Ltac same_steps :=
  repeat match goal with
         | H1 : ?t = _, H2 : ?t = _ |- _ =>
             rewrite H1 in H2;
             first [ discriminate H2
                   | injection H2; clear H2; intros; subst ]
         end.

(** [finishOAuthFlowAndGetRedirectUri] after identity resolution: a rejection
    is passed on as it is; otherwise one code is issued for the resolved id
    and the redirect is built from that code. *)
Lemma finish_after_resolution (a : FinishArgs) (w : World) :
  finishOAuthFlowAndGetRedirectUri a w
  = match getAuthIdFromProviderDetails (detailsOf a) w with
    | (Ok authId, w1) =>
        (Ok (getRedirectUriForOneTimeCode (randomToken (rng w1))),
         mkWorld (db w1)
                 (mkOneTimeCode (randomToken (rng w1)) authId
                                (now w1) (now w1 + validFor) :: codes w1)
                 (trace w1 ++ settled_ok (CCreateToken authId))
                 (S (rng w1)) (now w1))
    | (Throw e, w1) => (Throw e, w1)
    end.
Proof.
  unfold finishOAuthFlowAndGetRedirectUri, detailsOf, callbackProviderId, bind.
  destruct (getAuthIdFromProviderDetails _ w) as [[authId|e] w1];
    [|reflexivity].
  unfold await, tokenStore_createToken, ret. norm_trace. reflexivity.
Qed.

(** ** Order in a trace *)

Lemma precedes_here (e1 e2 : Event) (t : list Event) :
  In e2 t -> precedes e1 e2 (e1 :: t).
Proof.
  intros Hin. apply in_split in Hin. destruct Hin as (t2 & t3 & ->).
  now exists [], t2, t3.
Qed.

Lemma precedes_later (e1 e2 x : Event) (t : list Event) :
  precedes e1 e2 t -> precedes e1 e2 (x :: t).
Proof.
  intros (t1 & t2 & t3 & ->). now exists (x :: t1), t2, t3.
Qed.

Ltac in_list := cbn; auto 30.

Ltac solve_precedes :=
  unfold_calls; cbn;
  repeat first [ apply precedes_here; solve [in_list]
               | apply precedes_later ].

(** For an explicit trace: each call of the later kind is the one after
    [b]'s fulfilment. *)
Ltac solve_completes b :=
  let c := fresh "c" in
  let Hq := fresh "Hq" in
  let Hin := fresh "Hin" in
  unfold_calls; intros c Hq Hin; cbn in Hin;
  repeat (destruct Hin as [Hin|Hin];
          [ try discriminate Hin;
            try (injection Hin as <-; cbn in Hq;
                 first [ discriminate Hq
                       | exists b; split; [reflexivity|solve_precedes] ])
          | ]);
  try contradiction.

(** ** The login path *)

(** C3: when the callback's [ProviderId] matches an existing
    [AuthIdentity], [getAuthIdFromProviderDetails] returns the id of that
    identity's [Auth], and among the calls it makes there is neither
    [onBeforeSignupHook] nor [onAfterSignupHook]. *)
Theorem login_returns_existing_auth_without_hooks
    (a : ProviderDetails) (w : World) (existing : AuthIdentityWithAuth) :
  findUnique (db w) (pd_providerId a) = Some existing ->
  exists w' evs,
    getAuthIdFromProviderDetails a w = (Ok (auth_id (auth existing)), w')
    /\ trace w' = trace w ++ evs
    /\ filter is_onBeforeSignupHook (calls evs) = []
    /\ filter is_onAfterSignupHook (calls evs) = [].
Proof.
  intros Hfind.
  rewrite (getAuthId_login _ _ Hfind).
  eexists; exists (settled_ok (findCall a)).
  repeat split; reflexivity.
Qed.

(** C10: on the login path [getAuthIdFromProviderDetails] writes nothing.
    The only call it makes is the [findUnique] lookup, which leaves the world
    as it found it; the database (hence the matched [AuthIdentity] with its
    [providerData], and every [User] and [Auth] row) and the one-time code
    store are the same after the step as before. *)
Theorem login_resolution_writes_nothing
    (a : ProviderDetails) (w : World) (existing : AuthIdentityWithAuth) :
  findUnique (db w) (pd_providerId a) = Some existing ->
  exists r w' evs,
    getAuthIdFromProviderDetails a w = (r, w')
    /\ trace w' = trace w ++ evs
    /\ calls evs = [CFindUnique (pd_providerId a)]
    /\ filter is_write (calls evs) = []
    /\ (forall w0, snd (prisma_authIdentity_findUnique (pd_providerId a) w0)
                   = w0)
    /\ db w' = db w
    /\ codes w' = codes w
    /\ findUnique (db w') (pd_providerId a) = Some existing.
Proof.
  intros Hfind.
  rewrite (getAuthId_login _ _ Hfind).
  do 2 eexists; exists (settled_ok (findCall a)).
  repeat split; try reflexivity.
  - intros w0. now rewrite prisma_authIdentity_findUnique_reads.
  - exact Hfind.
Qed.

(** ** The signup path *)

(** C2: when the lookup finds nothing and [onBeforeSignupHook] rejects with
    [e], [getAuthIdFromProviderDetails] rejects with the same [e], and so
    does the whole flow.  Neither [createUser] nor [onAfterSignupHook] nor
    [tokenStore.createToken] is called; the one-time code store is
    unchanged and the database is exactly what the hook left, so no [User],
    [Auth] or [AuthIdentity] row is created by the flow (none at all when the
    hook wrote nothing). *)
Theorem rejected_signup_creates_nothing
    (a : FinishArgs) (w : World) (userFields : UserFields)
    (providerData : string) (e : Error) (dh : DB) :
  findUnique (db w) (callbackProviderId a) = None ->
  validateAndGetUserFields (fa_providerProfile a) (fa_userSignupFields a)
  = Ok userFields ->
  sanitizeAndSerializeProviderData [] = Ok providerData ->
  onBeforeSignupHook (fa_req a) (callbackProviderId a) (db w)
  = (Throw e, dh) ->
  exists w' evs,
    getAuthIdFromProviderDetails (detailsOf a) w = (Throw e, w')
    /\ finishOAuthFlowAndGetRedirectUri a w = (Throw e, w')
    /\ trace w' = trace w ++ evs
    /\ filter is_createUser (calls evs) = []
    /\ filter is_onAfterSignupHook (calls evs) = []
    /\ filter is_createToken (calls evs) = []
    /\ codes w' = codes w
    /\ db w' = dh
    /\ (dh = db w -> db w' = db w).
Proof.
  intros Hfind Hval Hsan Hbefore.
  destruct (getAuthId_signup (detailsOf a) w Hfind)
    as (r & d & evs & Hrun & Hsteps).
  rewrite finish_after_resolution, Hrun.
  destruct Hsteps; unfold detailsOf in *; cbn in *; same_steps.
  do 2 eexists. split; [reflexivity|]. split; [reflexivity|].
  split; [reflexivity|]. cbn. auto 10.
Qed.

(** C4: on the signup path, once [createUser] has returned the user,
    [getAuthIdFromProviderDetails] calls [onAfterSignupHook] exactly once; the
    call starts after [createUser] was fulfilled, runs on the database
    [createUser] left, and its [oauth] argument holds the provider access
    token and, as [uniqueRequestId], the state nonce [oAuthState.state]. *)
Theorem signup_invokes_onAfterSignupHook_once
    (a : ProviderDetails) (w : World) (userFields : UserFields)
    (providerData : string) (d1 d2 : DB) (u : UserWithAuth) :
  findUnique (db w) (pd_providerId a) = None ->
  validateAndGetUserFields (pd_providerProfile a) (pd_userSignupFields a)
  = Ok userFields ->
  sanitizeAndSerializeProviderData [] = Ok providerData ->
  onBeforeSignupHook (pd_req a) (pd_providerId a) (db w) = (Ok tt, d1) ->
  createUserWithIdentity (pd_providerId a) providerData userFields d1
  = (Ok u, d2) ->
  let oauth :=
    Some {| accessToken := pd_accessToken a;
            uniqueRequestId := state (pd_oAuthState a) |} in
  let hookCall := COnAfterSignupHook (pd_req a) (pd_providerId a) u oauth in
  exists r w' evs,
    getAuthIdFromProviderDetails a w = (r, w')
    /\ trace w' = trace w ++ evs
    /\ filter is_onAfterSignupHook (calls evs) = [hookCall]
    /\ precedes (Fulfilled (CCreateUser (pd_providerId a) providerData
                                        userFields))
                (Called hookCall) evs
    /\ db w'
       = snd (onAfterSignupHook (pd_req a) (pd_providerId a) u oauth d2).
Proof.
  intros Hfind Hval Hsan Hbefore Hcreate oauth hookCall.
  destruct (getAuthId_signup a w Hfind) as (r & d & evs & Hrun & Hsteps).
  exists r; eexists; exists evs. split; [exact Hrun|]. cbn.
  subst oauth hookCall.
  destruct Hsteps; unfold oauthContext in *; same_steps;
    match goal with
    | H : onAfterSignupHook _ _ _ _ _ = _ |- _ => rewrite H
    end;
    (split; [reflexivity|]; split; [reflexivity|];
     split; [solve_precedes|reflexivity]).
Qed.

(** C8: when [createUser] has succeeded and [onAfterSignupHook] then rejects
    with [e], [finishOAuthFlowAndGetRedirectUri] rejects with [e]: it returns
    no redirect URL, never calls [tokenStore.createToken] and leaves the code
    store as it was.  The account was in the database when the hook started,
    and the function does nothing to the database after the hook: it is left
    exactly as the hook left it, so the account stays unless the hook itself
    removed it. *)
Theorem failed_onAfterSignupHook_keeps_account_without_code
    (a : FinishArgs) (w : World) (userFields : UserFields)
    (providerData : string) (d1 d2 d3 : DB) (u : UserWithAuth) (e : Error) :
  let providerId := callbackProviderId a in
  let created :=
    mkAuthIdentityWithAuth
      (mkAuthIdentity (providerName providerId) (providerUserId providerId)
                      providerData)
      (user_auth u) in
  findUnique (db w) providerId = None ->
  validateAndGetUserFields (fa_providerProfile a) (fa_userSignupFields a)
  = Ok userFields ->
  sanitizeAndSerializeProviderData [] = Ok providerData ->
  onBeforeSignupHook (fa_req a) providerId (db w) = (Ok tt, d1) ->
  createUserWithIdentity providerId providerData userFields d1 = (Ok u, d2) ->
  onAfterSignupHook (fa_req a) providerId u
                    (Some (mkOAuthFields (fa_accessToken a)
                                         (state (fa_oAuthState a)))) d2
  = (Throw e, d3) ->
  exists w' evs,
    finishOAuthFlowAndGetRedirectUri a w = (Throw e, w')
    /\ trace w' = trace w ++ evs
    /\ filter is_createUser (calls evs)
       = [CCreateUser providerId providerData userFields]
    /\ filter is_createToken (calls evs) = []
    /\ codes w' = codes w
    /\ findUnique d2 providerId = Some created
    /\ db w' = d3
    /\ (d3 = d2 -> findUnique (db w') providerId = Some created).
Proof.
  intros providerId created Hfind Hval Hsan Hbefore Hcreate Hafter.
  pose proof (createUserWithIdentity_found _ _ _ _ Hcreate) as Hfound.
  subst providerId created.
  destruct (getAuthId_signup (detailsOf a) w Hfind)
    as (r & d & evs & Hrun & Hsteps).
  rewrite finish_after_resolution, Hrun.
  destruct Hsteps; unfold detailsOf, oauthContext in *; cbn in *; same_steps.
  do 2 eexists. split; [reflexivity|]. split; [reflexivity|].
  cbn. repeat split; auto. intros ->. exact Hfound.
Qed.

(** C7: on the signup path the steps never overlap and never swap.  In the
    events of any run, [createUser] starts only after [onBeforeSignupHook]
    was fulfilled, [onAfterSignupHook] only after [createUser] was fulfilled,
    and [tokenStore.createToken] only after [onAfterSignupHook] was
    fulfilled.  A run that returns a URL made exactly these four calls, once
    each and in this order, each working on the database the one before
    left. *)
Theorem signup_steps_strictly_sequential (a : FinishArgs) (w : World) :
  let providerId := callbackProviderId a in
  findUnique (db w) providerId = None ->
  exists r w' evs,
    finishOAuthFlowAndGetRedirectUri a w = (r, w')
    /\ trace w' = trace w ++ evs
    /\ completes_before is_onBeforeSignupHook is_createUser evs
    /\ completes_before is_createUser is_onAfterSignupHook evs
    /\ completes_before is_onAfterSignupHook is_createToken evs
    /\ (forall url, r = Ok url ->
          exists userFields providerData d1 u d2,
            filter is_step (calls evs)
            = [beforeCall (detailsOf a);
               createUserCall (detailsOf a) providerData userFields;
               afterCall (detailsOf a) u;
               CCreateToken (auth_id (user_auth u))]
            /\ onBeforeSignupHook (fa_req a) providerId (db w) = (Ok tt, d1)
            /\ createUserWithIdentity providerId providerData userFields d1
               = (Ok u, d2)
            /\ onAfterSignupHook (fa_req a) providerId u
                                 (oauthContext (detailsOf a)) d2
               = (Ok tt, db w')).
Proof.
  intros providerId Hfind. subst providerId.
  destruct (getAuthId_signup (detailsOf a) w Hfind)
    as (r0 & d & evs0 & Hrun & Hsteps).
  rewrite finish_after_resolution, Hrun.
  destruct Hsteps.
  6:{ do 2 eexists.
      exists ((untilAfterSignup (detailsOf a) providerData userFields
               ++ settled_ok (afterCall (detailsOf a) u))
              ++ settled_ok (CCreateToken (auth_id (user_auth u)))).
      split; [reflexivity|].
      split; [cbn; now rewrite <- !app_assoc|].
      split; [solve_completes (beforeCall (detailsOf a))|].
      split; [solve_completes
                (createUserCall (detailsOf a) providerData userFields)|].
      split; [solve_completes (afterCall (detailsOf a) u)|].
      intros url _. exists userFields, providerData, d1, u, d2.
      repeat split; assumption || reflexivity. }
  all: do 2 eexists; eexists; split; [reflexivity|];
    split; [reflexivity|].
  - split; [solve_completes sanitizeCall|].
    split; [solve_completes sanitizeCall|].
    split; [solve_completes sanitizeCall|].
    intros url Hurl; discriminate Hurl.
  - split; [solve_completes sanitizeCall|].
    split; [solve_completes sanitizeCall|].
    split; [solve_completes sanitizeCall|].
    intros url Hurl; discriminate Hurl.
  - split; [solve_completes sanitizeCall|].
    split; [solve_completes sanitizeCall|].
    split; [solve_completes sanitizeCall|].
    intros url Hurl; discriminate Hurl.
  - split; [solve_completes (beforeCall (detailsOf a))|].
    split; [solve_completes sanitizeCall|].
    split; [solve_completes sanitizeCall|].
    intros url Hurl; discriminate Hurl.
  - split; [solve_completes (beforeCall (detailsOf a))|].
    split; [solve_completes
              (createUserCall (detailsOf a) providerData userFields)|].
    split; [solve_completes sanitizeCall|].
    intros url Hurl; discriminate Hurl.
Qed.

(** ** Successful completion *)

(** C1: a run of [finishOAuthFlowAndGetRedirectUri] that returns a URL has
    called [tokenStore.createToken] exactly once and added exactly one record
    to the code store; the [authId] of that call and of that record is the
    [Auth.id] the callback's [ProviderId] resolves to: the existing identity's
    on the login path, the newly created user's on the signup path. *)
Theorem completion_issues_one_code_for_resolved_auth
    (a : FinishArgs) (w w' : World) (url : URL) :
  finishOAuthFlowAndGetRedirectUri a w = (Ok url, w') ->
  exists authId code evs,
    trace w' = trace w ++ evs
    /\ filter is_createToken (calls evs) = [CCreateToken authId]
    /\ codes w'
       = mkOneTimeCode code authId (now w) (now w + validFor) :: codes w
    /\ url = getRedirectUriForOneTimeCode code
    /\ resolvedAuthId a w authId.
Proof.
  intros Hrun. rewrite finish_after_resolution in Hrun.
  unfold resolvedAuthId.
  destruct (findUnique (db w) (callbackProviderId a)) as [existing|]
    eqn:Hfind.
  - rewrite (getAuthId_login (detailsOf a) w Hfind) in Hrun.
    injection Hrun as <- <-.
    exists (auth_id (auth existing)), (randomToken (rng w)).
    exists (settled_ok (findCall (detailsOf a))
            ++ settled_ok (CCreateToken (auth_id (auth existing)))).
    cbn. rewrite <- app_assoc. auto.
  - destruct (getAuthId_signup (detailsOf a) w Hfind)
      as (r & d & evs & Hresolve & Hsteps).
    rewrite Hresolve in Hrun.
    destruct Hsteps; try discriminate Hrun.
    injection Hrun as <- <-.
    exists (auth_id (user_auth u)), (randomToken (rng w)).
    exists ((untilAfterSignup (detailsOf a) providerData userFields
             ++ settled_ok (afterCall (detailsOf a) u))
            ++ settled_ok (CCreateToken (auth_id (user_auth u)))).
    split; [cbn; now rewrite <- !app_assoc|].
    repeat split; try reflexivity.
    exists userFields, providerData, d1, u, d2.
    match goal with
    | H : createUserWithIdentity _ _ _ _ = _ |- _ =>
        pose proof (createUserWithIdentity_found _ _ _ _ H)
    end.
    auto 10.
Qed.

(** C6: the URL a successful run returns is [getRedirectUriForOneTimeCode]
    of the code that run issued.  Hence two successful runs that issue the
    same code return the same URL, whatever their access tokens, provider
    profiles, requests, databases and resolved auth ids. *)
Theorem redirect_depends_on_code_only
    (a1 a2 : FinishArgs) (w1 w2 w1' w2' : World) (url1 url2 : URL) :
  finishOAuthFlowAndGetRedirectUri a1 w1 = (Ok url1, w1') ->
  finishOAuthFlowAndGetRedirectUri a2 w2 = (Ok url2, w2') ->
  (exists code,
      issuedCode w1' = Some code
      /\ url1 = getRedirectUriForOneTimeCode code)
  /\ (issuedCode w1' = issuedCode w2' -> url1 = url2).
Proof.
  assert (Hcode : forall a w url w',
             finishOAuthFlowAndGetRedirectUri a w = (Ok url, w') ->
             exists code, issuedCode w' = Some code
                          /\ url = getRedirectUriForOneTimeCode code).
  { intros a w url w' Hrun. rewrite finish_after_resolution in Hrun.
    destruct (getAuthIdFromProviderDetails (detailsOf a) w)
      as [[authId|e] w0]; [|discriminate].
    injection Hrun as <- <-.
    exists (randomToken (rng w0)). split; reflexivity. }
  intros H1 H2.
  destruct (Hcode _ _ _ _ H1) as (c1 & Hi1 & ->).
  destruct (Hcode _ _ _ _ H2) as (c2 & Hi2 & ->).
  split; [now exists c1|].
  rewrite Hi1, Hi2. intros Heq. injection Heq as ->. reflexivity.
Qed.

End Properties.

(** ** The Google profile fetch *)

Section GoogleProfile.

Import Google.

Variables (fetch : Fetch) (accessToken : string).
Variables (response : Response) (p : GoogleProfile).

Hypothesis fetched :
  fetch userinfoEndpoint
        [("Authorization", ("Bearer " ++ accessToken)%string)] = Ok response.
Hypothesis parsed : json response = Ok p.

(** C5, as the code has it: [getGoogleProfile] throws [Error("Invalid
    profile")] when the response has no [sub] field or an empty one, and
    otherwise returns the response with its [sub] as [providerUserId]. *)
Theorem getGoogleProfile_requires_nonempty_sub :
  getGoogleProfile fetch accessToken
  = match sub p with
    | None => Throw (JsError "Invalid profile")
    | Some s => if String.eqb s ""
                then Throw (JsError "Invalid profile")
                else Ok (mkProviderInfo p s)
    end.
Proof.
  unfold getGoogleProfile. rewrite fetched, parsed.
  destruct (sub p) as [s|]; cbn; [|reflexivity].
  now destruct (String.eqb s "").
Qed.

End GoogleProfile.

(** C5, as stated, fails: a response whose [sub] field is present and empty
    is rejected, not returned. *)
Lemma getGoogleProfile_empty_sub_not_returned :
  Google.sub (Google.mkGoogleProfile (Some "") []) = Some ""
  /\ Google.getGoogleProfile
       (Google.respondWith (Google.mkGoogleProfile (Some "") [])) "at-1"
     = Throw (JsError "Invalid profile")
  /\ ~ Google.sub_field_decides.
Proof.
  split; [reflexivity|]. split; [reflexivity|].
  intros Hclaim.
  specialize (Hclaim
                (Google.respondWith (Google.mkGoogleProfile (Some "") []))
                "at-1"
                (Google.mkResponse (Ok (Google.mkGoogleProfile (Some "") [])))
                (Google.mkGoogleProfile (Some "") [])
                eq_refl eq_refl).
  cbn in Hclaim. discriminate Hclaim.
Qed.

(** C9: [getGoogleProfile] throws the same error for a [sub] that is the
    empty string as for a missing [sub], and whenever it returns, the
    [providerUserId] it returns is a non-empty string (the profile's
    [sub]). *)
Theorem getGoogleProfile_empty_sub_like_missing :
  (forall (fetch : Google.Fetch) (accessToken : string)
          (response : Google.Response) (p : Google.GoogleProfile),
      fetch Google.userinfoEndpoint
            [("Authorization", ("Bearer " ++ accessToken)%string)]
      = Ok response ->
      Google.json response = Ok p ->
      Google.sub p = Some "" \/ Google.sub p = None ->
      Google.getGoogleProfile fetch accessToken
      = Throw (JsError "Invalid profile"))
  /\ (forall (fetch : Google.Fetch) (accessToken : string)
             (info : Google.ProviderInfo),
         Google.getGoogleProfile fetch accessToken = Ok info ->
         Google.providerUserId info <> ""
         /\ Google.sub (Google.providerProfile info)
            = Some (Google.providerUserId info)).
Proof.
  split.
  - intros fetch accessToken response p Hfetch Hjson Hsub.
    unfold Google.getGoogleProfile. rewrite Hfetch, Hjson.
    now destruct Hsub as [-> | ->].
  - intros fetch accessToken info. unfold Google.getGoogleProfile.
    destruct (fetch _ _) as [response|]; [|discriminate].
    destruct (Google.json response) as [p|]; [|discriminate].
    destruct (Google.sub p) as [s|] eqn:Hsub; cbn; [|discriminate].
    destruct (String.eqb s "") eqn:Hs; [discriminate|].
    intros H; injection H as <-. cbn.
    split; [|exact Hsub].
    now apply String.eqb_neq.
Qed.

(** * Further properties of the flow *)

Section FlowProperties.

Context {deps : Collaborators}.

Ltac unfold_calls :=
  unfold untilAfterSignup, untilCreateUser, untilBeforeSignup, untilSanitize,
         findCall, validateCall, sanitizeCall, beforeCall, createUserCall,
         afterCall, oauthContext, settled_ok, settled_err in *.

Ltac same_steps :=
  repeat match goal with
         | H1 : ?t = _, H2 : ?t = _ |- _ =>
             rewrite H1 in H2;
             first [ discriminate H2
                   | injection H2; clear H2; intros; subst ]
         end.

Ltac solve_precedes :=
  unfold_calls; cbn;
  repeat first [ apply precedes_here; solve [cbn; auto 30]
               | apply precedes_later ].

Ltac solve_completes b :=
  let c := fresh "c" in
  let Hq := fresh "Hq" in
  let Hin := fresh "Hin" in
  unfold_calls; intros c Hq Hin; cbn in Hin;
  repeat (destruct Hin as [Hin|Hin];
          [ try discriminate Hin;
            try (injection Hin as <-; cbn in Hq;
                 first [ discriminate Hq
                       | exists b; split; [reflexivity|solve_precedes] ])
          | ]);
  try contradiction.

(** The whole flow on the login path. *)
Lemma finish_login (a : FinishArgs) (w : World)
    (existing : AuthIdentityWithAuth) :
  findUnique (db w) (callbackProviderId a) = Some existing ->
  finishOAuthFlowAndGetRedirectUri a w
  = (Ok (getRedirectUriForOneTimeCode (randomToken (rng w))),
     mkWorld (db w)
             (mkOneTimeCode (randomToken (rng w)) (auth_id (auth existing))
                            (now w) (now w + validFor) :: codes w)
             ((trace w ++ settled_ok (CFindUnique (callbackProviderId a)))
              ++ settled_ok (CCreateToken (auth_id (auth existing))))
             (S (rng w)) (now w)).
Proof.
  intros Hfind.
  rewrite finish_after_resolution.
  now rewrite (getAuthId_login (detailsOf a) w Hfind).
Qed.


(** X2: when [validateAndGetUserFields] rejects on the signup path, the flow
    rejects with its error after the lookup and the validation only: no
    hook runs, [createUser] is not called, no code is issued, and database
    and code store are unchanged. *)
Theorem invalid_signup_fields_stop_before_hooks
    (a : FinishArgs) (w : World) (e : Error) :
  findUnique (db w) (callbackProviderId a) = None ->
  validateAndGetUserFields (fa_providerProfile a) (fa_userSignupFields a)
  = Throw e ->
  exists w' evs,
    finishOAuthFlowAndGetRedirectUri a w = (Throw e, w')
    /\ trace w' = trace w ++ evs
    /\ calls evs = [findCall (detailsOf a); validateCall (detailsOf a)]
    /\ db w' = db w
    /\ codes w' = codes w.
Proof.
  intros Hfind Hval.
  destruct (getAuthId_signup (detailsOf a) w Hfind)
    as (r & d & evs & Hresolve & Hsteps).
  rewrite finish_after_resolution, Hresolve.
  destruct Hsteps; unfold detailsOf in *; cbn in *; same_steps.
  do 2 eexists. repeat split; reflexivity.
Qed.

(** X3: when [createUser] rejects (a concurrent signup took the identity
    between lookup and creation), the flow rejects with its error:
    [onAfterSignupHook] is not called, no code is issued, and the database is
    the one [createUser] left. *)
Theorem createUser_rejection_skips_onAfterSignupHook
    (a : FinishArgs) (w : World) (userFields : UserFields)
    (providerData : string) (d1 d2 : DB) (e : Error) :
  findUnique (db w) (callbackProviderId a) = None ->
  validateAndGetUserFields (fa_providerProfile a) (fa_userSignupFields a)
  = Ok userFields ->
  sanitizeAndSerializeProviderData [] = Ok providerData ->
  onBeforeSignupHook (fa_req a) (callbackProviderId a) (db w) = (Ok tt, d1) ->
  createUserWithIdentity (callbackProviderId a) providerData userFields d1
  = (Throw e, d2) ->
  exists w' evs,
    finishOAuthFlowAndGetRedirectUri a w = (Throw e, w')
    /\ trace w' = trace w ++ evs
    /\ filter is_onAfterSignupHook (calls evs) = []
    /\ filter is_createToken (calls evs) = []
    /\ db w' = d2
    /\ codes w' = codes w.
Proof.
  intros Hfind Hval Hsan Hbefore Hcreate.
  destruct (getAuthId_signup (detailsOf a) w Hfind)
    as (r & d & evs & Hresolve & Hsteps).
  rewrite finish_after_resolution, Hresolve.
  destruct Hsteps; unfold detailsOf in *; cbn in *; same_steps.
  do 2 eexists. repeat split; reflexivity.
Qed.


(** X5: on the login path the outcome depends on the callback only through
    its [ProviderId]: two callbacks for the same [ProviderId], whatever their
    profiles, signup fields, requests, access tokens and states, give the
    same result and the same world. *)
Theorem login_completion_ignores_signup_inputs
    (a1 a2 : FinishArgs) (w : World) (existing : AuthIdentityWithAuth) :
  callbackProviderId a1 = callbackProviderId a2 ->
  findUnique (db w) (callbackProviderId a1) = Some existing ->
  finishOAuthFlowAndGetRedirectUri a1 w
  = finishOAuthFlowAndGetRedirectUri a2 w.
Proof.
  intros Hsame Hfind.
  rewrite (finish_login a1 w Hfind).
  rewrite Hsame in Hfind |- *.
  now rewrite (finish_login a2 w Hfind).
Qed.

(** X6: every call of a run that is given a [ProviderId] (the lookup, both
    hooks, [createUser]) is given the one made from [provider.id] and
    [providerUserId] by [createProviderId]. *)
Theorem calls_share_the_callback_providerId (a : FinishArgs) (w : World) :
  exists evs,
    trace (snd (finishOAuthFlowAndGetRedirectUri a w)) = trace w ++ evs
    /\ only_providerId (callbackProviderId a) (calls evs).
Proof.
  destruct (findUnique (db w) (callbackProviderId a)) as [existing|]
    eqn:Hfind.
  - rewrite (finish_login a w Hfind). cbn.
    eexists. split; [now rewrite <- app_assoc|].
    unfold only_providerId. cbn. repeat constructor.
  - rewrite finish_after_resolution.
    destruct (getAuthId_signup (detailsOf a) w Hfind)
      as (r & d & evs & Hresolve & Hsteps).
    rewrite Hresolve.
    destruct Hsteps; cbn;
      (eexists; split; [first [reflexivity | now rewrite <- app_assoc]|]);
      unfold only_providerId; unfold_calls; cbn; repeat constructor.
Qed.

(** X7: on the signup path [onBeforeSignupHook] starts only after
    [sanitizeAndSerializeProviderData] was fulfilled, which starts only after
    [validateAndGetUserFields] was fulfilled: a hook never sees a signup
    whose fields did not validate. *)
Theorem validation_completes_before_onBeforeSignupHook
    (a : FinishArgs) (w : World) :
  findUnique (db w) (callbackProviderId a) = None ->
  exists evs,
    trace (snd (finishOAuthFlowAndGetRedirectUri a w)) = trace w ++ evs
    /\ completes_before is_validateAndGetUserFields
                        is_sanitizeAndSerializeProviderData evs
    /\ completes_before is_sanitizeAndSerializeProviderData
                        is_onBeforeSignupHook evs.
Proof.
  intros Hfind.
  rewrite finish_after_resolution.
  destruct (getAuthId_signup (detailsOf a) w Hfind)
    as (r & d & evs & Hresolve & Hsteps).
  rewrite Hresolve.
  destruct Hsteps; cbn;
    (eexists; split; [first [reflexivity | now rewrite <- app_assoc]|]);
    (split; [solve_completes (validateCall (detailsOf a))
            |solve_completes sanitizeCall]).
Qed.

(** X8: with the documented signup gate as [onBeforeSignupHook], a
    signup-path callback is refused with status 403 when more than 100 users
    exist ("Too many users", checked first) or when it is for the address
    that is not allowed; [createUser] is not called, no code is issued,
    and database and code store are unchanged. *)
Theorem documented_gate_refuses_signup
    (a : FinishArgs) (w : World) (userFields : UserFields)
    (providerData : string) :
  (forall req providerId d,
      onBeforeSignupHook req providerId d
      = documentedOnBeforeSignup req providerId d) ->
  findUnique (db w) (callbackProviderId a) = None ->
  validateAndGetUserFields (fa_providerProfile a) (fa_userSignupFields a)
  = Ok userFields ->
  sanitizeAndSerializeProviderData [] = Ok providerData ->
  (100 < length (db w))%nat
  \/ (providerName (callbackProviderId a) = "email"
      /\ providerUserId (callbackProviderId a) = "some@email.com") ->
  exists w' evs,
    finishOAuthFlowAndGetRedirectUri a w
    = (Throw (HttpError 403 (if (100 <? Z.of_nat (length (db w)))%Z
                             then "Too many users"
                             else "This email is not allowed")), w')
    /\ trace w' = trace w ++ evs
    /\ filter is_createUser (calls evs) = []
    /\ filter is_createToken (calls evs) = []
    /\ db w' = db w
    /\ codes w' = codes w.
Proof.
  intros Hgate Hfind Hval Hsan Hrefused.
  assert (Hhook :
            onBeforeSignupHook (fa_req a) (callbackProviderId a) (db w)
            = (Throw (HttpError 403
                        (if (100 <? Z.of_nat (length (db w)))%Z
                         then "Too many users"
                         else "This email is not allowed")), db w)).
  { rewrite Hgate. unfold documentedOnBeforeSignup.
    destruct (100 <? Z.of_nat (length (db w)))%Z eqn:Hcount;
      [reflexivity|].
    destruct Hrefused as [Hmany|[-> ->]]; [|reflexivity].
    apply Z.ltb_ge in Hcount. lia. }
  destruct (getAuthId_signup (detailsOf a) w Hfind)
    as (r & d & evs & Hresolve & Hsteps).
  rewrite finish_after_resolution, Hresolve.
  destruct Hsteps; unfold detailsOf in *; cbn in *; same_steps.
  do 2 eexists. repeat split; reflexivity.
Qed.

End FlowProperties.

(** * Further properties of the Google profile fetch *)

(** X9: a failure of the request, or of reading the response body as JSON,
    is the failure of [getGoogleProfile]: the error is passed on unchanged,
    not turned into [Error("Invalid profile")]. *)
Theorem getGoogleProfile_passes_transport_errors_on
    (fetch : Google.Fetch) (accessToken : string) (e : Error) :
  (fetch Google.userinfoEndpoint
         [("Authorization", ("Bearer " ++ accessToken)%string)] = Throw e
   \/ exists response,
       fetch Google.userinfoEndpoint
             [("Authorization", ("Bearer " ++ accessToken)%string)]
       = Ok response
       /\ Google.json response = Throw e) ->
  Google.getGoogleProfile fetch accessToken = Throw e.
Proof.
  unfold Google.getGoogleProfile.
  intros [Hfetch|(response & Hfetch & Hjson)]; rewrite Hfetch;
    [reflexivity|].
  now rewrite Hjson.
Qed.

(** X10: [getGoogleProfile] returns exactly when the userinfo response is
    an object with a non-empty [sub]; what it returns is that object,
    untouched, and its [sub]. *)
Theorem getGoogleProfile_returns_iff
    (fetch : Google.Fetch) (accessToken : string)
    (info : Google.ProviderInfo) :
  Google.getGoogleProfile fetch accessToken = Ok info
  <-> exists response,
      fetch Google.userinfoEndpoint
            [("Authorization", ("Bearer " ++ accessToken)%string)]
      = Ok response
      /\ Google.json response = Ok (Google.providerProfile info)
      /\ Google.sub (Google.providerProfile info)
         = Some (Google.providerUserId info)
      /\ Google.providerUserId info <> "".
Proof.
  unfold Google.getGoogleProfile. split.
  - destruct (fetch _ _) as [response|]; [|discriminate].
    destruct (Google.json response) as [p|] eqn:Hjson; [|discriminate].
    destruct (Google.sub p) as [s|] eqn:Hsub; cbn; [|discriminate].
    destruct (String.eqb s "") eqn:Hs; [discriminate|].
    intros H; injection H as <-. cbn.
    exists response. repeat split; auto.
    now apply String.eqb_neq.
  - intros (response & -> & -> & Hsub & Hne).
    rewrite Hsub. cbn.
    apply String.eqb_neq in Hne. rewrite Hne.
    now destruct info.
Qed.

(** * Properties of the SDK's query client module *)

Section QueryClientProperties.

Import QueryClientSdk.

Lemma run_app (ops1 ops2 : list Op) (m : Module_) :
  run (ops1 ++ ops2) m = run ops2 (run ops1 m).
Proof. apply fold_left_app. Qed.

(** Once initialized, no call changes the module. *)
Lemma step_after_initialization (m : Module_) (op : Op) (qc : QueryClient) :
  isQueryClientInitialized m = true ->
  queryClientInitialized m = Resolved qc ->
  step m op = m.
Proof.
  intros Hinit Hres. destruct m as [config flag promise]. cbn in *. subst.
  destruct op; reflexivity.
Qed.

Lemma run_after_initialization (ops : list Op) (m : Module_)
    (qc : QueryClient) :
  isQueryClientInitialized m = true ->
  queryClientInitialized m = Resolved qc ->
  run ops m = m.
Proof.
  intros Hinit Hres. induction ops as [|op ops IH]; [reflexivity|].
  unfold run in *. cbn. now rewrite (step_after_initialization m op Hinit Hres).
Qed.

(** Before initialization the module only remembers the last configuration. *)
Lemma run_before_initialization (ops : list Op)
    (config : option QueryClientConfig) :
  existsb is_initialize ops = false ->
  run ops (mkModule config false Pending)
  = mkModule (fold_left (fun acc op => match op with
                                       | Configure c => Some c
                                       | Initialize => acc
                                       end) ops config)
             false Pending.
Proof.
  revert config. induction ops as [|op ops IH]; intros config Hnone;
    [reflexivity|].
  destruct op as [c|]; [|discriminate]. cbn in Hnone.
  unfold run in *. cbn. now apply IH.
Qed.

(** Splitting a sequence of calls at its first [Initialize]. *)
Lemma first_initialize (ops : list Op) :
  existsb is_initialize ops = true ->
  exists pre post,
    ops = pre ++ Initialize :: post
    /\ existsb is_initialize pre = false.
Proof.
  induction ops as [|op ops IH]; [discriminate|].
  destruct op as [c|]; cbn.
  - intros H. destruct (IH H) as (pre & post & -> & Hpre).
    now exists (Configure c :: pre), post.
  - intros _. now exists [], ops.
Qed.

(** The module after the first [Initialize]. *)
Lemma run_through_first_initialize (pre post : list Op) :
  existsb is_initialize pre = false ->
  run (pre ++ Initialize :: post) loaded
  = mkModule (lastConfigured pre) true
             (Resolved (mkQueryClient
                          (nullish (lastConfigured pre)
                                   defaultQueryClientConfig))).
Proof.
  intros Hpre.
  rewrite run_app. unfold loaded.
  rewrite (run_before_initialization pre None Hpre).
  fold (lastConfigured pre).
  change (run (Initialize :: post) ?m)
    with (run post (initializeQueryClient m)).
  now erewrite run_after_initialization.
Qed.





End QueryClientProperties.

(** * The properties on the concrete application *)

#[local] Existing Instance Example.app.

Lemma login_returns_existing_auth_without_hooks_witness :
  findUnique (db Example.returningWorld)
             (pd_providerId (detailsOf (Example.callback "at-1")))
  = Some (mkAuthIdentityWithAuth (mkAuthIdentity "google" "gid-9" "{}")
                                 Example.ada)
  /\ exists w' evs,
      getAuthIdFromProviderDetails (detailsOf (Example.callback "at-1"))
                                   Example.returningWorld
      = (Ok 7, w')
      /\ trace w' = trace Example.returningWorld ++ evs
      /\ filter is_onBeforeSignupHook (calls evs) = []
      /\ filter is_onAfterSignupHook (calls evs) = [].
Proof.
  split; [reflexivity|].
  apply (@login_returns_existing_auth_without_hooks
           Example.app (detailsOf (Example.callback "at-1"))
           Example.returningWorld
           (mkAuthIdentityWithAuth (mkAuthIdentity "google" "gid-9" "{}")
                                   Example.ada)).
  reflexivity.
Defined.

Lemma login_resolution_writes_nothing_witness :
  findUnique (db Example.returningWorld)
             (pd_providerId (detailsOf (Example.callback "at-2")))
  = Some (mkAuthIdentityWithAuth (mkAuthIdentity "google" "gid-9" "{}")
                                 Example.ada)
  /\ exists r w' evs,
      getAuthIdFromProviderDetails (detailsOf (Example.callback "at-2"))
                                   Example.returningWorld
      = (r, w')
      /\ trace w' = trace Example.returningWorld ++ evs
      /\ calls evs = [CFindUnique (mkProviderId "google" "gid-9")]
      /\ filter is_write (calls evs) = []
      /\ (forall w0,
             snd (prisma_authIdentity_findUnique
                    (mkProviderId "google" "gid-9") w0) = w0)
      /\ db w' = [Example.ada]
      /\ codes w' = []
      /\ findUnique (db w') (mkProviderId "google" "gid-9")
         = Some (mkAuthIdentityWithAuth (mkAuthIdentity "google" "gid-9" "{}")
                                        Example.ada).
Proof.
  split; [reflexivity|].
  apply (@login_resolution_writes_nothing
           Example.app (detailsOf (Example.callback "at-2"))
           Example.returningWorld
           (mkAuthIdentityWithAuth (mkAuthIdentity "google" "gid-9" "{}")
                                   Example.ada)).
  reflexivity.
Defined.

Lemma completion_issues_one_code_for_resolved_auth_witness :
  finishOAuthFlowAndGetRedirectUri (Example.callback "at-1")
                                   Example.emptyWorld
  = (Ok Example.completionUrl, Example.afterSignup)
  /\ exists authId code evs,
      trace Example.afterSignup = trace Example.emptyWorld ++ evs
      /\ filter is_createToken (calls evs) = [CCreateToken authId]
      /\ codes Example.afterSignup
         = mkOneTimeCode code authId (now Example.emptyWorld)
                         (now Example.emptyWorld + validFor)
           :: codes Example.emptyWorld
      /\ Example.completionUrl = getRedirectUriForOneTimeCode code
      /\ resolvedAuthId (Example.callback "at-1") Example.emptyWorld authId.
Proof.
  split; [vm_compute; reflexivity|].
  apply (@completion_issues_one_code_for_resolved_auth
           Example.app (Example.callback "at-1") Example.emptyWorld
           Example.afterSignup Example.completionUrl).
  vm_compute; reflexivity.
Defined.

Lemma rejected_signup_creates_nothing_witness :
  (findUnique (db Example.emptyWorld)
              (callbackProviderId Example.bannedCallback) = None
   /\ validateAndGetUserFields (fa_providerProfile Example.bannedCallback)
                               (fa_userSignupFields Example.bannedCallback)
      = Ok []
   /\ sanitizeAndSerializeProviderData [] = Ok "{}"
   /\ onBeforeSignupHook (fa_req Example.bannedCallback)
                         (callbackProviderId Example.bannedCallback)
                         (db Example.emptyWorld)
      = (Throw (HttpError 403 "This email is not allowed"), []))
  /\ exists w' evs,
      getAuthIdFromProviderDetails (detailsOf Example.bannedCallback)
                                   Example.emptyWorld
      = (Throw (HttpError 403 "This email is not allowed"), w')
      /\ finishOAuthFlowAndGetRedirectUri Example.bannedCallback
                                          Example.emptyWorld
         = (Throw (HttpError 403 "This email is not allowed"), w')
      /\ trace w' = trace Example.emptyWorld ++ evs
      /\ filter is_createUser (calls evs) = []
      /\ filter is_onAfterSignupHook (calls evs) = []
      /\ filter is_createToken (calls evs) = []
      /\ codes w' = codes Example.emptyWorld
      /\ db w' = []
      /\ ([] = db Example.emptyWorld -> db w' = db Example.emptyWorld).
Proof.
  split; [repeat split; vm_compute; reflexivity|].
  apply (@rejected_signup_creates_nothing
           Example.app Example.bannedCallback Example.emptyWorld [] "{}"
           (HttpError 403 "This email is not allowed") []);
    vm_compute; reflexivity.
Defined.

Lemma signup_invokes_onAfterSignupHook_once_witness :
  (findUnique (db Example.emptyWorld)
              (pd_providerId (detailsOf (Example.callback "at-1"))) = None
   /\ validateAndGetUserFields
        (pd_providerProfile (detailsOf (Example.callback "at-1")))
        (pd_userSignupFields (detailsOf (Example.callback "at-1")))
      = Ok []
   /\ sanitizeAndSerializeProviderData [] = Ok "{}"
   /\ onBeforeSignupHook (pd_req (detailsOf (Example.callback "at-1")))
                         (mkProviderId "google" "gid-9")
                         (db Example.emptyWorld)
      = (Ok tt, [])
   /\ createUserWithIdentity (mkProviderId "google" "gid-9") "{}" [] []
      = (Ok Example.newUser, [user_auth Example.newUser]))
  /\ exists r w' evs,
      getAuthIdFromProviderDetails (detailsOf (Example.callback "at-1"))
                                   Example.emptyWorld = (r, w')
      /\ trace w' = trace Example.emptyWorld ++ evs
      /\ filter is_onAfterSignupHook (calls evs)
         = [COnAfterSignupHook
              "GET /auth/google/callback" (mkProviderId "google" "gid-9")
              Example.newUser
              (Some {| accessToken := "at-1"; uniqueRequestId := "s1" |})]
      /\ precedes
           (Fulfilled (CCreateUser (mkProviderId "google" "gid-9") "{}" []))
           (Called
              (COnAfterSignupHook
                 "GET /auth/google/callback" (mkProviderId "google" "gid-9")
                 Example.newUser
                 (Some {| accessToken := "at-1"; uniqueRequestId := "s1" |})))
           evs
      /\ db w'
         = snd (onAfterSignupHook
                  "GET /auth/google/callback" (mkProviderId "google" "gid-9")
                  Example.newUser
                  (Some {| accessToken := "at-1"; uniqueRequestId := "s1" |})
                  [user_auth Example.newUser]).
Proof.
  split; [repeat split; vm_compute; reflexivity|].
  apply (@signup_invokes_onAfterSignupHook_once
           Example.app (detailsOf (Example.callback "at-1"))
           Example.emptyWorld [] "{}" [] [user_auth Example.newUser]
           Example.newUser);
    vm_compute; reflexivity.
Defined.

Lemma signup_steps_strictly_sequential_witness :
  findUnique (db Example.emptyWorld)
             (callbackProviderId (Example.callback "at-1")) = None
  /\ exists r w' evs,
      finishOAuthFlowAndGetRedirectUri (Example.callback "at-1")
                                       Example.emptyWorld = (r, w')
      /\ trace w' = trace Example.emptyWorld ++ evs
      /\ completes_before is_onBeforeSignupHook is_createUser evs
      /\ completes_before is_createUser is_onAfterSignupHook evs
      /\ completes_before is_onAfterSignupHook is_createToken evs
      /\ (forall url, r = Ok url ->
            exists userFields providerData d1 u d2,
              filter is_step (calls evs)
              = [beforeCall (detailsOf (Example.callback "at-1"));
                 createUserCall (detailsOf (Example.callback "at-1"))
                                providerData userFields;
                 afterCall (detailsOf (Example.callback "at-1")) u;
                 CCreateToken (auth_id (user_auth u))]
              /\ onBeforeSignupHook
                   (fa_req (Example.callback "at-1"))
                   (callbackProviderId (Example.callback "at-1"))
                   (db Example.emptyWorld) = (Ok tt, d1)
              /\ createUserWithIdentity
                   (callbackProviderId (Example.callback "at-1"))
                   providerData userFields d1
                 = (Ok u, d2)
              /\ onAfterSignupHook
                   (fa_req (Example.callback "at-1"))
                   (callbackProviderId (Example.callback "at-1")) u
                   (oauthContext (detailsOf (Example.callback "at-1"))) d2
                 = (Ok tt, db w')).
Proof.
  split; [vm_compute; reflexivity|].
  apply (@signup_steps_strictly_sequential
           Example.app (Example.callback "at-1") Example.emptyWorld).
  vm_compute; reflexivity.
Defined.

Lemma failed_onAfterSignupHook_keeps_account_without_code_witness :
  (findUnique (db Example.emptyWorld)
              (callbackProviderId (Example.callback "")) = None
   /\ validateAndGetUserFields (fa_providerProfile (Example.callback ""))
                               (fa_userSignupFields (Example.callback ""))
      = Ok []
   /\ sanitizeAndSerializeProviderData [] = Ok "{}"
   /\ onBeforeSignupHook (fa_req (Example.callback ""))
                         (callbackProviderId (Example.callback ""))
                         (db Example.emptyWorld) = (Ok tt, [])
   /\ createUserWithIdentity (callbackProviderId (Example.callback ""))
                             "{}" [] []
      = (Ok Example.newUser, [user_auth Example.newUser])
   /\ onAfterSignupHook (fa_req (Example.callback ""))
                        (callbackProviderId (Example.callback ""))
                        Example.newUser
                        (Some (mkOAuthFields "" "s1"))
                        [user_auth Example.newUser]
      = (Throw (JsError "no access token to store"),
         [user_auth Example.newUser]))
  /\ exists w' evs,
      finishOAuthFlowAndGetRedirectUri (Example.callback "")
                                       Example.emptyWorld
      = (Throw (JsError "no access token to store"), w')
      /\ trace w' = trace Example.emptyWorld ++ evs
      /\ filter is_createUser (calls evs)
         = [CCreateUser (mkProviderId "google" "gid-9") "{}" []]
      /\ filter is_createToken (calls evs) = []
      /\ codes w' = codes Example.emptyWorld
      /\ findUnique [user_auth Example.newUser]
                    (mkProviderId "google" "gid-9")
         = Some (mkAuthIdentityWithAuth
                   (mkAuthIdentity "google" "gid-9" "{}")
                   (user_auth Example.newUser))
      /\ db w' = [user_auth Example.newUser]
      /\ ([user_auth Example.newUser] = [user_auth Example.newUser] ->
          findUnique (db w') (mkProviderId "google" "gid-9")
          = Some (mkAuthIdentityWithAuth
                    (mkAuthIdentity "google" "gid-9" "{}")
                    (user_auth Example.newUser))).
Proof.
  split; [repeat split; vm_compute; reflexivity|].
  apply (@failed_onAfterSignupHook_keeps_account_without_code
           Example.app (Example.callback "") Example.emptyWorld [] "{}"
           [] [user_auth Example.newUser] [user_auth Example.newUser]
           Example.newUser (JsError "no access token to store"));
    vm_compute; reflexivity.
Defined.

Lemma redirect_depends_on_code_only_witness :
  (finishOAuthFlowAndGetRedirectUri (Example.callback "at-1")
                                    Example.emptyWorld
   = (Ok Example.completionUrl, Example.afterSignup)
   /\ finishOAuthFlowAndGetRedirectUri (Example.callback "at-2")
                                       Example.freshReturningWorld
      = (Ok Example.completionUrl, Example.afterLogin))
  /\ (exists code,
         issuedCode Example.afterSignup = Some code
         /\ Example.completionUrl = getRedirectUriForOneTimeCode code)
  /\ (issuedCode Example.afterSignup = issuedCode Example.afterLogin ->
      Example.completionUrl = Example.completionUrl).
Proof.
  split; [split; vm_compute; reflexivity|].
  apply (@redirect_depends_on_code_only
           Example.app (Example.callback "at-1") (Example.callback "at-2")
           Example.emptyWorld Example.freshReturningWorld
           Example.afterSignup Example.afterLogin
           Example.completionUrl Example.completionUrl);
    vm_compute; reflexivity.
Defined.

Lemma getGoogleProfile_requires_nonempty_sub_witness :
  (Google.respondWith Example.profile9 Google.userinfoEndpoint
                      [("Authorization", ("Bearer " ++ "at-1")%string)]
   = Ok (Google.mkResponse (Ok Example.profile9))
   /\ Google.json (Google.mkResponse (Ok Example.profile9))
      = Ok Example.profile9)
  /\ Google.getGoogleProfile (Google.respondWith Example.profile9) "at-1"
     = Ok (Google.mkProviderInfo Example.profile9 "gid-9").
Proof.
  split; [split; vm_compute; reflexivity|].
  apply (@getGoogleProfile_requires_nonempty_sub
           (Google.respondWith Example.profile9) "at-1"
           (Google.mkResponse (Ok Example.profile9)) Example.profile9);
    vm_compute; reflexivity.
Defined.

Lemma getGoogleProfile_empty_sub_like_missing_witness :
  (Google.sub Example.emptySubProfile = Some ""
   /\ Google.getGoogleProfile (Google.respondWith Example.emptySubProfile)
                              "at-1"
      = Throw (JsError "Invalid profile"))
  /\ (Google.getGoogleProfile (Google.respondWith Example.profile9) "at-1"
      = Ok (Google.mkProviderInfo Example.profile9 "gid-9")
      /\ "gid-9" <> ""
      /\ Google.sub Example.profile9 = Some "gid-9").
Proof.
  split.
  - split; [vm_compute; reflexivity|].
    apply (proj1 getGoogleProfile_empty_sub_like_missing
                 (Google.respondWith Example.emptySubProfile) "at-1"
                 (Google.mkResponse (Ok Example.emptySubProfile))
                 Example.emptySubProfile eq_refl eq_refl).
    left; reflexivity.
  - split; [vm_compute; reflexivity|].
    apply (proj2 getGoogleProfile_empty_sub_like_missing
                 (Google.respondWith Example.profile9) "at-1"
                 (Google.mkProviderInfo Example.profile9 "gid-9")).
    reflexivity.
Defined.

(** * The further properties on concrete runs *)


Lemma invalid_signup_fields_stop_before_hooks_witness :
  (findUnique (db Scenario.emptyWorld)
              (callbackProviderId
                 (Scenario.callback "GET /auth/google/callback"
                                    (Some ["name"; "email"]))) = None
   /\ @validateAndGetUserFields Scenario.app Example.profile9
                                (Some ["name"; "email"])
      = Throw (ValidationError "email"))
  /\ exists w' evs,
      finishOAuthFlowAndGetRedirectUri
        (Scenario.callback "GET /auth/google/callback"
                           (Some ["name"; "email"]))
        Scenario.emptyWorld
      = (Throw (ValidationError "email"), w')
      /\ trace w' = trace Scenario.emptyWorld ++ evs
      /\ calls evs
         = [findCall (detailsOf (Scenario.callback
                                   "GET /auth/google/callback"
                                   (Some ["name"; "email"])));
            validateCall (detailsOf (Scenario.callback
                                       "GET /auth/google/callback"
                                       (Some ["name"; "email"])))]
      /\ db w' = db Scenario.emptyWorld
      /\ codes w' = codes Scenario.emptyWorld.
Proof.
  split; [split; vm_compute; reflexivity|].
  apply (@invalid_signup_fields_stop_before_hooks
           Scenario.app
           (Scenario.callback "GET /auth/google/callback"
                              (Some ["name"; "email"]))
           Scenario.emptyWorld (ValidationError "email"));
    vm_compute; reflexivity.
Defined.

Lemma createUser_rejection_skips_onAfterSignupHook_witness :
  (findUnique (db Scenario.emptyWorld)
              (callbackProviderId (Scenario.callback "race" None)) = None
   /\ @validateAndGetUserFields Scenario.app Example.profile9 None = Ok []
   /\ @sanitizeAndSerializeProviderData Scenario.app [] = Ok "{}"
   /\ @onBeforeSignupHook Scenario.app "race"
                          (mkProviderId "google" "gid-9")
                          (db Scenario.emptyWorld)
      = (Ok tt, [user_auth Example.newUser])
   /\ createUserWithIdentity (mkProviderId "google" "gid-9") "{}" []
                             [user_auth Example.newUser]
      = (Throw DuplicateIdentityError, [user_auth Example.newUser]))
  /\ exists w' evs,
      finishOAuthFlowAndGetRedirectUri (Scenario.callback "race" None)
                                       Scenario.emptyWorld
      = (Throw DuplicateIdentityError, w')
      /\ trace w' = trace Scenario.emptyWorld ++ evs
      /\ filter is_onAfterSignupHook (calls evs) = []
      /\ filter is_createToken (calls evs) = []
      /\ db w' = [user_auth Example.newUser]
      /\ codes w' = codes Scenario.emptyWorld.
Proof.
  split; [repeat split; vm_compute; reflexivity|].
  apply (@createUser_rejection_skips_onAfterSignupHook
           Scenario.app (Scenario.callback "race" None) Scenario.emptyWorld
           [] "{}" [user_auth Example.newUser] [user_auth Example.newUser]
           DuplicateIdentityError);
    vm_compute; reflexivity.
Defined.


Lemma login_completion_ignores_signup_inputs_witness :
  (callbackProviderId (Scenario.callback "race" (Some ["email"]))
   = callbackProviderId (Scenario.callback "GET /auth/google/callback" None)
   /\ findUnique (db Scenario.returningWorld)
                 (callbackProviderId
                    (Scenario.callback "race" (Some ["email"])))
      = Some (mkAuthIdentityWithAuth (mkAuthIdentity "google" "gid-9" "{}")
                                     Example.ada))
  /\ finishOAuthFlowAndGetRedirectUri
       (Scenario.callback "race" (Some ["email"])) Scenario.returningWorld
     = finishOAuthFlowAndGetRedirectUri
         (Scenario.callback "GET /auth/google/callback" None)
         Scenario.returningWorld.
Proof.
  split; [split; vm_compute; reflexivity|].
  apply (@login_completion_ignores_signup_inputs
           Scenario.app (Scenario.callback "race" (Some ["email"]))
           (Scenario.callback "GET /auth/google/callback" None)
           Scenario.returningWorld
           (mkAuthIdentityWithAuth (mkAuthIdentity "google" "gid-9" "{}")
                                   Example.ada));
    vm_compute; reflexivity.
Defined.

Lemma validation_completes_before_onBeforeSignupHook_witness :
  findUnique (db Scenario.emptyWorld)
             (callbackProviderId
                (Scenario.callback "GET /auth/google/callback"
                                   (Some ["name"]))) = None
  /\ exists evs,
      trace (snd (finishOAuthFlowAndGetRedirectUri
                    (Scenario.callback "GET /auth/google/callback"
                                       (Some ["name"]))
                    Scenario.emptyWorld))
      = trace Scenario.emptyWorld ++ evs
      /\ completes_before is_validateAndGetUserFields
                          is_sanitizeAndSerializeProviderData evs
      /\ completes_before is_sanitizeAndSerializeProviderData
                          is_onBeforeSignupHook evs.
Proof.
  split; [vm_compute; reflexivity|].
  apply (@validation_completes_before_onBeforeSignupHook
           Scenario.app
           (Scenario.callback "GET /auth/google/callback" (Some ["name"]))
           Scenario.emptyWorld).
  vm_compute; reflexivity.
Defined.

Lemma documented_gate_refuses_signup_witness :
  ((forall req providerId d,
       @onBeforeSignupHook Example.app req providerId d
       = documentedOnBeforeSignup req providerId d)
   /\ findUnique (db Example.emptyWorld)
                 (callbackProviderId Example.bannedCallback) = None
   /\ validateAndGetUserFields (fa_providerProfile Example.bannedCallback)
                               (fa_userSignupFields Example.bannedCallback)
      = Ok []
   /\ sanitizeAndSerializeProviderData [] = Ok "{}"
   /\ providerName (callbackProviderId Example.bannedCallback) = "email"
   /\ providerUserId (callbackProviderId Example.bannedCallback)
      = "some@email.com")
  /\ exists w' evs,
      finishOAuthFlowAndGetRedirectUri Example.bannedCallback
                                       Example.emptyWorld
      = (Throw (HttpError 403 "This email is not allowed"), w')
      /\ trace w' = trace Example.emptyWorld ++ evs
      /\ filter is_createUser (calls evs) = []
      /\ filter is_createToken (calls evs) = []
      /\ db w' = db Example.emptyWorld
      /\ codes w' = codes Example.emptyWorld.
Proof.
  split; [repeat split; vm_compute; reflexivity|].
  apply (@documented_gate_refuses_signup
           Example.app Example.bannedCallback Example.emptyWorld [] "{}").
  - intros req providerId d. reflexivity.
  - vm_compute; reflexivity.
  - vm_compute; reflexivity.
  - vm_compute; reflexivity.
  - right. split; vm_compute; reflexivity.
Defined.

Lemma getGoogleProfile_passes_transport_errors_on_witness :
  (Scenario.unreachable
     Google.userinfoEndpoint
     [("Authorization", ("Bearer " ++ "at-1")%string)]
   = Throw (NetworkError "fetch failed")
   /\ Google.getGoogleProfile Scenario.unreachable "at-1"
      = Throw (NetworkError "fetch failed"))
  /\ (Google.json (Google.mkResponse (Throw (JsError "Unexpected token <")))
      = Throw (JsError "Unexpected token <")
      /\ Google.getGoogleProfile Scenario.notJson "at-1"
         = Throw (JsError "Unexpected token <")).
Proof.
  split; (split; [reflexivity|]).
  - apply (@getGoogleProfile_passes_transport_errors_on
             Scenario.unreachable "at-1" (NetworkError "fetch failed")).
    left. reflexivity.
  - apply (@getGoogleProfile_passes_transport_errors_on
             Scenario.notJson "at-1" (JsError "Unexpected token <")).
    right.
    exists (Google.mkResponse (Throw (JsError "Unexpected token <"))).
    split; reflexivity.
Defined.


